(** * Smartcard Comparison Tool: normalisation and set comparison

    A shallow embedding of [sc_compare.py]: the column-guess heuristic
    [guess_sc_col], the normaliser [normalize_smartcards] with its inner
    [_norm], and the comparison block of the script (the sets [sc1], [sc2],
    the three sorted result lists and the four metrics), together with the
    guard that decides between running the comparison and warning.

    Python values are modelled as the source sees them: a [str] is a sequence
    of Unicode code points, an [int] is an unbounded integer, a [float] is an
    IEEE-754 binary64 datum (sign, mantissa, exponent), a [set] of strings is
    a finite set, a pandas column is the sequence of its cells. *)

From Stdlib Require Import ZArith NArith List Bool Lia String Ascii Decimal.
From Stdlib Require Import SpecFloat DecimalPos.
From Stdlib Require DecimalFacts.
From stdpp Require Import base decidable list sorting gmap.

Local Open Scope Z_scope.

(** ** Python strings *)

Module Py.

(** A code point. *)
Definition char := N.

(** A Python [str]: the sequence of its code points. *)
Definition str := list char.

(** An ASCII literal of the source, as a [str]. *)
Fixpoint lit (s : String.string) : str :=
  match s with
  | EmptyString => []
  | String a s' => N_of_ascii a :: lit s'
  end.

(** [c.isspace()] for a single code point: the code points Python treats as
    whitespace (bidirectional type WS, B or S, or category Zs). *)
Definition isspace (c : char) : bool :=
  ((9 <=? c) && (c <=? 13) || (28 <=? c) && (c <=? 32)
   || (c =? 133) || (c =? 160) || (c =? 5760)
   || (8192 <=? c) && (c <=? 8202)
   || (c =? 8232) || (c =? 8233) || (c =? 8239) || (c =? 8287)
   || (c =? 12288))%N.

(** [s.lstrip()], [s.rstrip()] and [s.strip()] with no argument. *)
Fixpoint lstrip (s : str) : str :=
  match s with
  | [] => []
  | c :: s' => if isspace c then lstrip s' else s
  end.

Definition rstrip (s : str) : str := rev (lstrip (rev s)).

Definition strip (s : str) : str := rstrip (lstrip s).

(** [s.startswith(p)]. *)
Fixpoint startswith (p s : str) : bool :=
  match p, s with
  | [], _ => true
  | _ :: _, [] => false
  | a :: p', b :: s' => (a =? b)%N && startswith p' s'
  end.

(** [sub in s] on strings: [sub] occurs in [s] as a contiguous run. *)
Fixpoint contains (sub s : str) : bool :=
  startswith sub s ||
  match s with
  | [] => false
  | _ :: s' => contains sub s'
  end.

(** [a < b] on strings: lexicographic on code points, a proper prefix first. *)
Fixpoint lt (a b : str) : bool :=
  match a, b with
  | _, [] => false
  | [], _ :: _ => true
  | x :: a', y :: b' => (x <? y)%N || (x =? y)%N && lt a' b'
  end.

(** The order [sorted] establishes: [a] may stand before [b] when [b < a]
    does not hold. *)
Definition le (a b : str) : Prop := lt b a = false.

#[global] Instance le_dec (a b : str) : Decision (le a b).
Proof. unfold le. apply _. Defined.

(** Decimal digits of a natural number, most significant first. *)
Fixpoint uint_digits (d : Decimal.uint) : str :=
  match d with
  | Nil => []
  | D0 d' => 48%N :: uint_digits d'
  | D1 d' => 49%N :: uint_digits d'
  | D2 d' => 50%N :: uint_digits d'
  | D3 d' => 51%N :: uint_digits d'
  | D4 d' => 52%N :: uint_digits d'
  | D5 d' => 53%N :: uint_digits d'
  | D6 d' => 54%N :: uint_digits d'
  | D7 d' => 55%N :: uint_digits d'
  | D8 d' => 56%N :: uint_digits d'
  | D9 d' => 57%N :: uint_digits d'
  end.

(** [str(n)] for an [int]: decimal digits, a leading minus sign when negative. *)
Definition str_of_int (z : Z) : str :=
  match z with
  | Z0 => [48%N]
  | Zpos p => uint_digits (Pos.to_uint p)
  | Zneg p => 45%N :: uint_digits (Pos.to_uint p)
  end.

(** A case-mapping table: the image of a code point, given the text before
    and after it. *)
Definition case_table : Type := str -> char -> str -> str.

Section Lower.

(** The lowercase mapping of a code point above ASCII, given the text before
    and after it (Unicode's case-mapping table: it may yield several code
    points, and for the capital sigma it looks at the neighbours). *)
Variable lower_tbl : case_table.

Definition lower_char (before : str) (c : char) (after : str) : str :=
  if ((65 <=? c) && (c <=? 90))%N then [(c + 32)%N]
  else if (c <? 128)%N then [c]
  else lower_tbl before c after.

Fixpoint lower_from (before s : str) : str :=
  match s with
  | [] => []
  | c :: s' => lower_char before c s' ++ lower_from (before ++ [c]) s'
  end.

(** [s.lower()]. *)
Definition lower (s : str) : str := lower_from [] s.

End Lower.

End Py.

(** ** The column-guess heuristic *)

Section Guess.

Variable lower_tbl : Py.case_table.

(** The test of the loop body: ["smartcard" in c.lower()]. *)
Definition is_sc_name (c : Py.str) : bool :=
  Py.contains (Py.lit "smartcard") (Py.lower lower_tbl c).

(** The [for] loop of [guess_sc_col]: the first matching name, if any. *)
Fixpoint guess_loop (cols : list Py.str) : option Py.str :=
  match cols with
  | [] => None
  | c :: rest => if is_sc_name c then Some c else guess_loop rest
  end.

(** [guess_sc_col(cols)]; [None] is Python's [None]. *)
Definition guess_sc_col (cols : list Py.str) : option Py.str :=
  match guess_loop cols with
  | Some c => Some c
  | None =>
      if (0 <? Z.of_nat (length cols)) then nth_error cols 0 else None
  end.

End Guess.

(** ** Python floats *)

Module PyFloat.

(** A [float] is a binary64 datum; [S754_finite s m e] denotes
    [(-1)^s * m * 2^e]. *)
Definition float := spec_float.

(** [x.is_integer()]: finite and without fractional part. *)
Definition is_integer (x : float) : bool :=
  match x with
  | S754_zero _ => true
  | S754_infinity _ | S754_nan => false
  | S754_finite _ m e =>
      if 0 <=? e then true else Zpos m mod 2 ^ (- e) =? 0
  end.

(** [int(x)], truncation towards zero.  Python raises on infinities and
    NaN; the source calls [int] under the guard [x.is_integer()] only, which
    excludes both, and the value given for them here is never used. *)
Definition to_int (x : float) : Z :=
  match x with
  | S754_finite s m e =>
      let a := if 0 <=? e then Zpos m * 2 ^ e else Zpos m / 2 ^ (- e) in
      if s then - a else a
  | _ => 0
  end.

(** The positive rational [num / den] a finite non-zero float stands for. *)
Definition num (m : positive) (e : Z) : Z :=
  if 0 <=? e then Zpos m * 2 ^ e else Zpos m.

Definition den (e : Z) : Z :=
  if 0 <=? e then 1 else 2 ^ (- e).

(** Number of decimal digits of a positive integer. *)
Definition ndigits (z : Z) : Z :=
  Z.of_nat (length (Py.str_of_int z)).

(** [10^k <= n / d], for positive [n] and [d] and any [k]. *)
Definition ge_pow10 (n d k : Z) : bool :=
  if 0 <=? k then d * 10 ^ k <=? n else d <=? n * 10 ^ (- k).

(** The decimal exponent [X] of [n / d]: [10^X <= n / d < 10^(X+1)]. *)
Definition dec_exponent (n d : Z) : Z :=
  let k := ndigits n - ndigits d in
  if ge_pow10 n d k then k else k - 1.

(** Rounding [a / b] to the nearest integer, a tie going to the even one. *)
Definition round_half_even (a b : Z) : Z :=
  let q := a / b in
  let r := a mod b in
  if 2 * r <? b then q
  else if b <? 2 * r then q + 1
  else if Z.even q then q else q + 1.

(** The [P] significant digits of [n / d] correctly rounded, as an integer
    of [P] digits, and the decimal exponent of the rounded value. *)
Definition round_sig (P n d : Z) : Z * Z :=
  let X := dec_exponent n d in
  let s := P - 1 - X in
  let r := if 0 <=? s then round_half_even (n * 10 ^ s) d
           else round_half_even n (d * 10 ^ (- s)) in
  if r =? 10 ^ P then (10 ^ (P - 1), X + 1) else (r, X).

Definition zero_char : Py.char := 48%N.

(** Dropping the leading zeros, and the trailing zeros, of a digit string. *)
Fixpoint drop_zeros (ds : Py.str) : Py.str :=
  match ds with
  | [] => []
  | c :: ds' => if (c =? zero_char)%N then drop_zeros ds' else ds
  end.

Definition strip_zeros (ds : Py.str) : Py.str := rev (drop_zeros (rev ds)).

(** A digit string with a point in front of its non-empty fraction. *)
Definition with_fraction (ip fp : Py.str) : Py.str :=
  match fp with
  | [] => ip
  | _ :: _ => ip ++ Py.lit "." ++ fp
  end.

(** The exponent field of the scientific form: a sign, two digits at least. *)
Definition exp_field (X : Z) : Py.str :=
  let a := Py.str_of_int (Z.abs X) in
  Py.lit (if X <? 0 then "e-" else "e+")
  ++ (if Z.abs X <? 10 then zero_char :: a else a).

(** The body of the [g] presentation at precision [P] for the positive
    rational [n / d]: fixed notation when [-4 <= X < P], scientific
    otherwise, insignificant trailing zeros removed in both. *)
Definition format_g_pos (P n d : Z) : Py.str :=
  let '(r, X) := round_sig P n d in
  let ds := strip_zeros (Py.str_of_int r) in
  if (-4 <=? X) && (X <? P) then
    if 0 <=? X then
      let k := Z.to_nat (X + 1) in
      with_fraction (take k (ds ++ replicate k zero_char)) (drop k ds)
    else
      Py.lit "0." ++ replicate (Z.to_nat (- X - 1)) zero_char ++ ds
  else
    with_fraction (take 1 ds) (drop 1 ds) ++ exp_field X.

(** [format(x, ".15g")], which is what [f"{x:.15g}"] evaluates. *)
Definition format_15g (x : float) : Py.str :=
  match x with
  | S754_zero s => Py.lit (if s then "-0" else "0")
  | S754_infinity s => Py.lit (if s then "-inf" else "inf")
  | S754_nan => Py.lit "nan"
  | S754_finite s m e =>
      (if s then Py.lit "-" else []) ++ format_g_pos 15 (num m e) (den e)
  end.

End PyFloat.

(** ** Cell values and the normaliser *)

(** A cell of a column as [_norm] receives it. *)
Inductive value : Type :=
  | VNull                      (* [None], [pd.NA], [NaT] *)
  | VInt (z : Z)               (* [int], [np.integer] *)
  | VFloat (x : PyFloat.float) (* [float] *)
  | VStr (s : Py.str).         (* [str] *)

(** [pd.isna(x)] on a scalar: the missing markers and the float NaN. *)
Definition isna (x : value) : bool :=
  match x with
  | VNull => true
  | VFloat S754_nan => true
  | _ => false
  end.

(** The inner function [_norm]; [None] is Python's [None]. *)
Definition _norm (x : value) : option Py.str :=
  if isna x then None
  else match x with
       | VInt z => Some (Py.str_of_int z)
       | VFloat f =>
           if PyFloat.is_integer f then Some (Py.str_of_int (PyFloat.to_int f))
           else Some (PyFloat.format_15g f)
       | VStr s => Some (Py.strip s)
       | VNull => Some (Py.strip (Py.lit "None"))
       end.

(** [Series.dropna()] on a column of results: the [None] cells are removed,
    the others keep their order. *)
Fixpoint dropna {A} (l : list (option A)) : list A :=
  match l with
  | [] => []
  | None :: l' => dropna l'
  | Some a :: l' => a :: dropna l'
  end.

(** [normalize_smartcards(series)]: [series.map(_norm).dropna()]. *)
Definition normalize_smartcards (series : list value) : list Py.str :=
  dropna (map _norm series).

(** ** The comparison block of the script *)

(** [sorted(X)] for a set of strings: the elements in whatever order the set
    yields them, sorted by [<]. *)
Definition sorted (X : gset Py.str) : list Py.str :=
  merge_sort Py.le (elements X).

(** What the block computes and shows: the three result lists (the single
    column of [df_common], [df_only1], [df_only2]), the variables [total1]
    and [total2], and the four [st.metric] calls as label and number. *)
Record comparison : Type := Comparison {
  common : list Py.str;
  only_in_1 : list Py.str;
  only_in_2 : list Py.str;
  total1 : nat;
  total2 : nat;
  metrics : list (Py.str * nat)
}.

(** The block from [norm_sc1 = ...] to the summary cards, on the two chosen
    columns [df1[col1_name]] and [df2[col2_name]]. *)
Definition compare_columns (file1_label file2_label : Py.str)
    (column1 column2 : list value) : comparison :=
  let norm_sc1 := normalize_smartcards column1 in
  let norm_sc2 := normalize_smartcards column2 in
  let sc1 : gset Py.str := list_to_set norm_sc1 in
  let sc2 : gset Py.str := list_to_set norm_sc2 in
  let common := sorted (sc1 ∩ sc2) in
  let only_in_1 := sorted (sc1 ∖ sc2) in
  let only_in_2 := sorted (sc2 ∖ sc1) in
  let total1 := size sc1 in
  let total2 := size sc2 in
  {| common := common;
     only_in_1 := only_in_1;
     only_in_2 := only_in_2;
     total1 := total1;
     total2 := total2;
     metrics :=
       [ (Py.lit "Distinct in " ++ file1_label, total1);
         (Py.lit "Distinct in " ++ file2_label, total2);
         (Py.lit "In Both Files", length common);
         (Py.lit "Total Unique Across Both", size (sc1 ∪ sc2)) ] |}.

(** The Identifier Set of a column: [set(normalize_smartcards(column))]. *)
Definition identifier_set (column : list value) : gset Py.str :=
  list_to_set (normalize_smartcards column).

(** ** The script around the block *)

(** A table: its named columns in order, each the sequence of its cells. *)
Definition DataFrame := list (Py.str * list value).

(** [df.columns]. *)
Definition columns (df : DataFrame) : list Py.str := map fst df.

(** [df[c]]: the column named [c]; [None] stands for [KeyError]. *)
Fixpoint getitem (df : DataFrame) (c : Py.str) : option (list value) :=
  match df with
  | [] => None
  | (n, cells) :: df' => if decide (n = c) then Some cells else getitem df' c
  end.

(** What the last part of the script does in one run. *)
Inductive outcome : Type :=
  | Compared (r : comparison)  (* the comparison block ran *)
  | Warned (msg : Py.str)      (* [st.warning(msg)] *)
  | Raised                     (* [KeyError] from [df[col]] *)
  | Nothing.                   (* neither branch taken *)

Definition warning_text : Py.str :=
  Py.lit "Please upload both files and select the smartcard columns in the sidebar.".

(** Truth value of a column selection: [None] and the empty string are false. *)
Definition truthy (c : option Py.str) : bool :=
  match c with
  | Some (_ :: _) => true
  | _ => false
  end.

(** The first four conjuncts of the guard
    [df1 is not None and df2 is not None and col1_name and col2_name]. *)
Definition inputs_present (df1 df2 : option DataFrame)
    (col1_name col2_name : option Py.str)
  : option (DataFrame * DataFrame * Py.str * Py.str) :=
  match df1, df2, col1_name, col2_name with
  | Some d1, Some d2, Some c1, Some c2 =>
      if truthy col1_name && truthy col2_name then Some (d1, d2, c1, c2)
      else None
  | _, _, _, _ => None
  end.

(** The [if ... elif run_compare: ...] that closes the script. *)
Definition comparison_logic (df1 df2 : option DataFrame)
    (col1_name col2_name : option Py.str) (run_compare : bool)
    (file1_label file2_label : Py.str) : outcome :=
  match inputs_present df1 df2 col1_name col2_name, run_compare with
  | Some (d1, d2, c1, c2), true =>
      match getitem d1 c1, getitem d2 c2 with
      | Some column1, Some column2 =>
          Compared (compare_columns file1_label file2_label column1 column2)
      | _, _ => Raised
      end
  | None, true => Warned warning_text
  | _, false => Nothing
  end.

(** An uploaded file: its name and the table [load_table] parses from it. *)
Record upload : Type := Upload {
  name : Py.str;
  table : DataFrame
}.

(** One run of the page: the two uploaders, what the two select boxes
    return when they are drawn, and whether the button was pressed. *)
Record page : Type := Page {
  file1 : option upload;
  file2 : option upload;
  selected1 : option Py.str;
  selected2 : option Py.str;
  button : bool
}.

(** The script from the sidebar on: the select boxes and the button exist
    only when both tables are loaded; otherwise [col1_name], [col2_name] stay
    [None] and [run_compare] is [False]. *)
Definition script (p : page) : outcome :=
  let df1 := table <$> file1 p in
  let df2 := table <$> file2 p in
  let file1_label := from_option name (Py.lit "File 1") (file1 p) in
  let file2_label := from_option name (Py.lit "File 2") (file2 p) in
  let '(col1_name, col2_name, run_compare) :=
    match df1, df2 with
    | Some _, Some _ => (selected1 p, selected2 p, button p)
    | _, _ => (None, None, false)
    end in
  comparison_logic df1 df2 col1_name col2_name run_compare
    file1_label file2_label.

(** ** The sidebar: loading the uploads and preselecting a column *)

(** [s.endswith(suf)]. *)
Definition endswith (suf s : Py.str) : bool :=
  Py.startswith (rev suf) (rev s).

(** The object the uploader hands to [load_table]: a name, the bytes of the
    file and the position of the next read. *)
Record uploaded_file : Type := UploadedFile {
  file_name : Py.str;
  content : list Byte.byte;
  position : nat
}.

(** [uploaded_file.seek(pos)]. *)
Definition seek (pos : nat) (f : uploaded_file) : uploaded_file :=
  {| file_name := file_name f; content := content f; position := pos |}.

(** What a call of [load_table] ends in. *)
Inductive load_result : Type :=
  | NoTable                    (* [return None] *)
  | Table (df : DataFrame)     (* the parsed table *)
  | ParseFailure.              (* the parser raised *)

Section Load.

Variable lower_tbl : Py.case_table.

(** The two parsers of pandas, [pd.read_csv] and [pd.read_excel], on a
    file object: the table, or [None] when the parser raises, and the file
    object as the parser leaves it. *)
Variable read_csv read_excel :
  uploaded_file -> option DataFrame * uploaded_file.

Definition parsed (r : option DataFrame * uploaded_file)
  : load_result * option uploaded_file :=
  (match fst r with Some df => Table df | None => ParseFailure end,
   Some (snd r)).

(** [load_table(uploaded_file)], with the file object after the call. *)
Definition load_table (uploaded : option uploaded_file)
  : load_result * option uploaded_file :=
  match uploaded with
  | None => (NoTable, None)
  | Some f =>
      let filename := Py.lower lower_tbl (file_name f) in
      if endswith (Py.lit ".csv") filename
      then parsed (read_csv (seek 0 f))
      else parsed (read_excel (seek 0 f))
  end.

(** [l.index(x)]: the first position of [x]; [None] stands for [ValueError]. *)
Fixpoint list_index (x : Py.str) (l : list Py.str) : option nat :=
  match l with
  | [] => None
  | y :: l' => if decide (y = x) then Some 0%nat
               else S <$> list_index x l'
  end.

(** The [index] argument of a select box:
    [list(df.columns).index(default_col) if default_col else 0]
    with [default_col = guess_sc_col(df.columns)]. *)
Definition default_index (cols : list Py.str) : option nat :=
  let default_col := guess_sc_col lower_tbl cols in
  if truthy default_col
  then match default_col with
       | Some c => list_index c cols
       | None => Some 0%nat
       end
  else Some 0%nat.

End Load.

(** ** The string order is a total order *)

Ltac cmp_cases :=
  repeat match goal with
    | |- context [(?x <? ?y)%N] => destruct (N.ltb_spec x y)
    | H : context [(?x <? ?y)%N] |- _ => destruct (N.ltb_spec x y)
    | |- context [(?x =? ?y)%N] => destruct (N.eqb_spec x y)
    | H : context [(?x =? ?y)%N] |- _ => destruct (N.eqb_spec x y)
    end;
  simpl in *; subst; try congruence; try lia.

Lemma lt_irrefl (a : Py.str) : Py.lt a a = false.
Proof.
  induction a as [|x a IH]; simpl; [reflexivity|].
  rewrite N.ltb_irrefl, N.eqb_refl. exact IH.
Qed.

Lemma lt_asym (a b : Py.str) : Py.lt a b = true -> Py.lt b a = false.
Proof.
  revert b. induction a as [|x a IH]; intros [|y b]; simpl; try congruence.
  intros H. cmp_cases. apply IH, H.
Qed.

Lemma lt_trichotomy (a b : Py.str) :
  Py.lt a b = false -> Py.lt b a = false -> a = b.
Proof.
  revert b. induction a as [|x a IH]; intros [|y b]; simpl; try congruence.
  intros H1 H2. cmp_cases. f_equal. apply IH; assumption.
Qed.

Lemma lt_trans (a b c : Py.str) :
  Py.lt a b = true -> Py.lt b c = true -> Py.lt a c = true.
Proof.
  revert b c. induction a as [|x a IH]; intros [|y b] [|z c]; simpl;
    try congruence.
  intros H1 H2. cmp_cases. eapply IH; eassumption.
Qed.

Lemma lt_neg_trans (a b c : Py.str) :
  Py.lt a b = false -> Py.lt b c = false -> Py.lt a c = false.
Proof.
  revert b c. induction a as [|x a IH]; intros [|y b] [|z c]; simpl;
    try congruence.
  intros H1 H2. cmp_cases. eapply IH; eassumption.
Qed.

#[global] Instance le_total : Total Py.le.
Proof.
  intros a b. unfold Py.le.
  destruct (Py.lt b a) eqn:E; [right; apply lt_asym, E | left; reflexivity].
Qed.

#[global] Instance le_trans : Transitive Py.le.
Proof. intros a b c Hab Hbc. unfold Py.le in *. eapply lt_neg_trans; eassumption. Qed.

#[global] Instance le_antisym : AntiSymm (=) Py.le.
Proof. intros a b Hab Hba. unfold Py.le in *. apply lt_trichotomy; assumption. Qed.

Lemma le_neq_lt (a b : Py.str) : Py.le a b -> a ≠ b -> Py.lt a b = true.
Proof.
  unfold Py.le. intros Hle Hne. destruct (Py.lt a b) eqn:E; [reflexivity|].
  exfalso. apply Hne, lt_trichotomy; assumption.
Qed.

(** ** What [sorted] returns *)

Lemma sorted_perm (X : gset Py.str) : sorted X ≡ₚ elements X.
Proof. apply merge_sort_Permutation. Qed.

Lemma elem_of_sorted (X : gset Py.str) (s : Py.str) : s ∈ sorted X ↔ s ∈ X.
Proof. rewrite sorted_perm. apply elem_of_elements. Qed.

Lemma NoDup_sorted (X : gset Py.str) : NoDup (sorted X).
Proof. rewrite sorted_perm. apply NoDup_elements. Qed.

Lemma length_sorted (X : gset Py.str) : length (sorted X) = size X.
Proof. unfold size, set_size. simpl. now rewrite sorted_perm. Qed.

Lemma sorted_le (X : gset Py.str) : StronglySorted Py.le (sorted X).
Proof. apply StronglySorted_merge_sort; apply _. Qed.

(** Strictly ascending: every element is [<] every later one. *)
Definition ascending (l : list Py.str) : Prop :=
  StronglySorted (fun a b => Py.lt a b = true) l.

Lemma le_NoDup_ascending (l : list Py.str) :
  StronglySorted Py.le l -> NoDup l -> ascending l.
Proof.
  unfold ascending. induction 1 as [|x l Hl IH Hx]; intros Hnd.
  - constructor.
  - apply NoDup_cons in Hnd as [Hnotin Hnd]. constructor; [auto|].
    rewrite Forall_forall in Hx |- *. intros y Hy.
    apply le_neq_lt; [auto|]. intros ->. contradiction.
Qed.

Lemma sorted_ascending (X : gset Py.str) : ascending (sorted X).
Proof. apply le_NoDup_ascending; [apply sorted_le | apply NoDup_sorted]. Qed.

(** The order in which the set yields its elements does not show in the
    result: sorting any enumeration of the set gives the same list. *)
Lemma sorted_any_order (X : gset Py.str) (l : list Py.str) :
  l ≡ₚ elements X -> merge_sort Py.le l = sorted X.
Proof.
  intros Hl. apply (StronglySorted_unique Py.le).
  - apply StronglySorted_merge_sort; apply _.
  - apply sorted_le.
  - rewrite merge_sort_Permutation, Hl. symmetry. apply sorted_perm.
Qed.

Lemma sorted_empty : sorted ∅ = [].
Proof. unfold sorted. now rewrite elements_empty. Qed.

(** ** The three result lists and the four counts *)

Lemma list_to_set_sorted (X : gset Py.str) : list_to_set (sorted X) = X.
Proof.
  apply set_eq. intros s. rewrite elem_of_list_to_set. apply elem_of_sorted.
Qed.

(** Membership reasoning over [∪], [∩] and [∖], by cases on the atoms. *)
Ltac by_membership :=
  first [ apply set_eq | apply elem_of_disjoint | apply elem_of_subseteq ];
  intros ?;
  rewrite ?elem_of_union, ?elem_of_intersection, ?elem_of_difference;
  tauto.

Lemma empty_intersection (B : gset Py.str) : ∅ ∩ B = ∅.
Proof.
  apply set_eq. intros s. rewrite elem_of_intersection.
  split; [intros [H _]; exact H | intros H; now apply not_elem_of_empty in H].
Qed.

Lemma empty_difference (B : gset Py.str) : ∅ ∖ B = ∅.
Proof.
  apply set_eq. intros s. rewrite elem_of_difference.
  split; [intros [H _]; exact H | intros H; now apply not_elem_of_empty in H].
Qed.

Lemma empty_union : (∅ : gset Py.str) ∪ ∅ = ∅.
Proof.
  apply set_eq. intros s. rewrite elem_of_union.
  split; [intros [H | H]; exact H | intros H; now left].
Qed.

(** C1. For the Identifier Sets A and B of any two columns, the lists
    common, only-in-1 and only-in-2 are pairwise disjoint as sets and their
    union is A ∪ B. *)
Theorem results_partition_union (file1_label file2_label : Py.str)
    (column1 column2 : list value) :
  let r := compare_columns file1_label file2_label column1 column2 in
  let A := identifier_set column1 in
  let B := identifier_set column2 in
  let C : gset Py.str := list_to_set (common r) in
  let O1 : gset Py.str := list_to_set (only_in_1 r) in
  let O2 : gset Py.str := list_to_set (only_in_2 r) in
  C ## O1 ∧ C ## O2 ∧ O1 ## O2 ∧ C ∪ O1 ∪ O2 = A ∪ B.
Proof.
  simpl. unfold identifier_set. rewrite !list_to_set_sorted.
  set (A := list_to_set (normalize_smartcards column1) : gset Py.str).
  set (B := list_to_set (normalize_smartcards column2) : gset Py.str).
  split; [by_membership|]. split; [by_membership|]. split; [by_membership|].
  apply set_eq. intros s.
  rewrite !elem_of_union, elem_of_intersection, !elem_of_difference.
  destruct (decide (s ∈ A)), (decide (s ∈ B)); tauto.
Qed.

(** C2. The four reported counts are |A|, |B|, |A ∩ B| and |A ∪ B|, and the
    union count is distinct-in-1 + distinct-in-2 − common-count. *)
Theorem counts_are_cardinalities (file1_label file2_label : Py.str)
    (column1 column2 : list value) :
  let r := compare_columns file1_label file2_label column1 column2 in
  let A := identifier_set column1 in
  let B := identifier_set column2 in
  total1 r = size A ∧ total2 r = size B ∧
  length (common r) = size (A ∩ B) ∧
  metrics r =
    [ (Py.lit "Distinct in " ++ file1_label, size A);
      (Py.lit "Distinct in " ++ file2_label, size B);
      (Py.lit "In Both Files", size (A ∩ B));
      (Py.lit "Total Unique Across Both", size (A ∪ B)) ] ∧
  size (A ∪ B) = (size A + size B - size (A ∩ B))%nat ∧
  (size (A ∩ B) <= size A + size B)%nat.
Proof.
  simpl. unfold identifier_set. rewrite !length_sorted.
  set (A := list_to_set (normalize_smartcards column1) : gset Py.str).
  set (B := list_to_set (normalize_smartcards column2) : gset Py.str).
  assert (HA : (size (A ∩ B) <= size A)%nat) by (apply subseteq_size; by_membership).
  assert (HB : (size (B ∩ A) <= size B)%nat) by (apply subseteq_size; by_membership).
  assert (HU : size (A ∪ B) = (size A + (size B - size (B ∩ A)))%nat)
    by (rewrite size_union_alt, size_difference_alt; reflexivity).
  assert (HC : B ∩ A = A ∩ B) by by_membership.
  rewrite HC in HU, HB.
  repeat split; try reflexivity; lia.
Qed.

(** C5. The three result lists are in strictly ascending order of the
    string comparison [<] on code points; the identifiers "10", "2", "1"
    come out as "1", "10", "2". *)
Theorem results_sorted_lexicographically (file1_label file2_label : Py.str)
    (column1 column2 : list value) :
  let r := compare_columns file1_label file2_label column1 column2 in
  ascending (common r) ∧ ascending (only_in_1 r) ∧ ascending (only_in_2 r) ∧
  sorted (list_to_set [Py.lit "10"; Py.lit "2"; Py.lit "1"])
    = [Py.lit "1"; Py.lit "10"; Py.lit "2"] ∧
  only_in_1 (compare_columns file1_label file2_label
               [VStr (Py.lit "10"); VStr (Py.lit "2"); VStr (Py.lit "1")] [])
    = [Py.lit "1"; Py.lit "10"; Py.lit "2"].
Proof.
  simpl. split_and!; [apply sorted_ascending..| |]; vm_compute; reflexivity.
Qed.

(** ** The normaliser *)

(** The binary64 data the examples use. *)
Definition float_123 : PyFloat.float :=       (* 123.0 *)
  S754_finite false 8655355533852672 (-46).
Definition float_123_456 : PyFloat.float :=   (* 123.456 *)
  S754_finite false 8687443681197687 (-46).
Definition float_1e_05 : PyFloat.float :=     (* 1e-05 *)
  S754_finite false 5902958103587057 (-69).
Definition float_1234567890123456_5 : PyFloat.float := (* 1234567890123456.5 *)
  S754_finite false 4938271560493826 (-2).

(** A well-formed binary64 datum: 53 bits of precision, exponents below 1024. *)
Definition binary64 (x : PyFloat.float) : bool := valid_binary 53 1024 x.

(** The float [f] is the integer [z]: exact equality of the rational that [f]
    denotes with [z]. *)
Definition float_is_int (f : PyFloat.float) (z : Z) : Prop :=
  match f with
  | S754_zero _ => z = 0
  | S754_finite s m e =>
      (if s then - PyFloat.num m e else PyFloat.num m e) = z * PyFloat.den e
  | S754_infinity _ | S754_nan => False
  end.

(** The per-value rule as the specification words it, in priority order:
    missing values give nothing; an integer gives its decimal string; a float
    equal to an integer gives that integer's decimal string; any other float
    gives the [.15g] rendering; text gives the stripped text. *)
Inductive norm_rule : value -> option Py.str -> Prop :=
  | rule_null x :
      isna x = true -> norm_rule x None
  | rule_integer z :
      norm_rule (VInt z) (Some (Py.str_of_int z))
  | rule_float_integral f z :
      float_is_int f z -> norm_rule (VFloat f) (Some (Py.str_of_int z))
  | rule_float_other f :
      isna (VFloat f) = false -> (forall z, ~ float_is_int f z) ->
      norm_rule (VFloat f) (Some (PyFloat.format_15g f))
  | rule_text s :
      norm_rule (VStr s) (Some (Py.strip s)).

Lemma pow2_pos (k : Z) : 0 <= k -> 0 < 2 ^ k.
Proof. intros. apply Z.pow_pos_nonneg; lia. Qed.

Lemma float_is_int_to_int (f : PyFloat.float) (z : Z) :
  float_is_int f z -> PyFloat.is_integer f = true /\ PyFloat.to_int f = z.
Proof.
  destruct f as [s|s| |s m e]; simpl; try tauto.
  - intros ->. auto.
  - unfold PyFloat.num, PyFloat.den.
    destruct (Z.leb_spec 0 e) as [He|He].
    + intros H. split; [reflexivity|]. destruct s; lia.
    + assert (Hd : 0 < 2 ^ (- e)) by (apply pow2_pos; lia).
      intros H.
      assert (Hm : Z.pos m = (if s then - z else z) * 2 ^ (- e))
        by (destruct s; lia).
      rewrite Hm, Z.mod_mul, Z.div_mul by lia.
      split; [reflexivity | destruct s; lia].
Qed.

Lemma is_integer_float_is_int (f : PyFloat.float) :
  PyFloat.is_integer f = true -> float_is_int f (PyFloat.to_int f).
Proof.
  destruct f as [s|s| |s m e]; simpl; try congruence.
  unfold PyFloat.num, PyFloat.den.
  destruct (Z.leb_spec 0 e) as [He|He].
  - intros _. destruct s; lia.
  - assert (Hd : 0 < 2 ^ (- e)) by (apply pow2_pos; lia).
    intros H. apply Z.eqb_eq in H.
    pose proof (Z.div_mod (Z.pos m) (2 ^ (- e)) ltac:(lia)) as Hdm.
    rewrite H in Hdm. destruct s; lia.
Qed.

Lemma norm_rule_sound (x : value) (r : option Py.str) :
  norm_rule x r -> _norm x = r.
Proof.
  intros H. destruct H as [x Hna|z|f z Hz|f Hna Hz|s]; unfold _norm.
  - now rewrite Hna.
  - reflexivity.
  - destruct (float_is_int_to_int f z Hz) as [Hi Ht].
    assert (Hna : isna (VFloat f) = false)
      by (destruct f; simpl in *; [reflexivity..|contradiction|reflexivity]).
    now rewrite Hna, Hi, Ht.
  - rewrite Hna. destruct (PyFloat.is_integer f) eqn:Hi; [|reflexivity].
    exfalso. eapply Hz, is_integer_float_is_int, Hi.
  - reflexivity.
Qed.

Lemma norm_rule_complete (x : value) : norm_rule x (_norm x).
Proof.
  unfold _norm. destruct (isna x) eqn:Hna; [now constructor|].
  destruct x as [|z|f|s]; try discriminate; try constructor.
  destruct (PyFloat.is_integer f) eqn:Hi.
  - constructor. apply is_integer_float_is_int, Hi.
  - constructor; [exact Hna|]. intros z Hz.
    apply float_is_int_to_int in Hz as [Hi' _]. congruence.
Qed.

Lemma normalize_omap (series : list value) :
  normalize_smartcards series = omap _norm series.
Proof.
  unfold normalize_smartcards.
  induction series as [|x series IH]; simpl; [reflexivity|].
  destruct (_norm x); simpl; now rewrite IH.
Qed.

Lemma normalize_app (a b : list value) :
  normalize_smartcards (a ++ b)
  = normalize_smartcards a ++ normalize_smartcards b.
Proof. rewrite !normalize_omap. apply omap_app. Qed.

Lemma elem_of_normalize (series : list value) (t : Py.str) :
  t ∈ normalize_smartcards series ↔ ∃ x, x ∈ series ∧ _norm x = Some t.
Proof. rewrite normalize_omap. apply list_elem_of_omap. Qed.

Lemma normalize_all_null (series : list value) :
  Forall (fun x => isna x = true) series -> normalize_smartcards series = [].
Proof.
  unfold normalize_smartcards. induction 1 as [|x series Hx _ IH]; simpl;
    [reflexivity|].
  unfold _norm at 1. now rewrite Hx.
Qed.

(** C3. Normalisation follows the per-value rules in priority order (missing
    values dropped, integers as their decimal string, integer-valued floats
    as the integer's decimal string, text stripped), integer 123 and float
    123.0 both give "123", and the output keeps the input order without
    collapsing duplicates. *)
Theorem normalize_rules_in_order :
  (∀ x r, norm_rule x r ↔ _norm x = r) ∧
  _norm (VInt 123) = Some (Py.lit "123") ∧
  binary64 float_123 = true ∧
  _norm (VFloat float_123) = Some (Py.lit "123") ∧
  (∀ series, normalize_smartcards series = omap _norm series) ∧
  (∀ a b, normalize_smartcards (a ++ b)
          = normalize_smartcards a ++ normalize_smartcards b) ∧
  normalize_smartcards
    [VInt 102; VNull; VInt 101; VFloat S754_nan; VStr (Py.lit " 7 "); VInt 102]
  = [Py.lit "102"; Py.lit "101"; Py.lit "7"; Py.lit "102"].
Proof.
  split_and!.
  - intros x r. split; [apply norm_rule_sound|].
    intros <-. apply norm_rule_complete.
  - vm_compute; reflexivity.
  - vm_compute; reflexivity.
  - vm_compute; reflexivity.
  - apply normalize_omap.
  - apply normalize_app.
  - vm_compute; reflexivity.
Qed.

(** C4. On a float with a fractional part [_norm] gives the [.15g] rendering:
    "123.456" for 123.456, but exponent notation for 1e-05 and for
    1234567890123456.5. *)
Theorem fractional_float_rendering :
  binary64 float_123_456 = true ∧ PyFloat.is_integer float_123_456 = false ∧
  _norm (VFloat float_123_456) = Some (Py.lit "123.456") ∧
  binary64 float_1e_05 = true ∧ PyFloat.is_integer float_1e_05 = false ∧
  _norm (VFloat float_1e_05) = Some (Py.lit "1e-05") ∧
  binary64 float_1234567890123456_5 = true ∧
  PyFloat.is_integer float_1234567890123456_5 = false ∧
  _norm (VFloat float_1234567890123456_5)
    = Some (Py.lit "1.23456789012346e+15").
Proof. split_and!; vm_compute; reflexivity. Qed.

Lemma lstrip_all_space (s : Py.str) :
  forallb Py.isspace s = true -> Py.lstrip s = [].
Proof.
  induction s as [|c s IH]; simpl; [reflexivity|].
  intros H. apply andb_true_iff in H as [Hc Hs]. rewrite Hc. auto.
Qed.

Lemma strip_all_space (s : Py.str) :
  forallb Py.isspace s = true -> Py.strip s = [].
Proof. intros H. unfold Py.strip. now rewrite lstrip_all_space. Qed.

(** C8. A column that is empty or holds only missing values has the empty
    Identifier Set, and the comparison goes through; when both columns are
    such, the three lists are empty and all four counts are zero. *)
Theorem empty_columns_compare_to_nothing (file1_label file2_label : Py.str)
    (column1 column2 : list value) :
  Forall (fun x => isna x = true) column1 ->
  Forall (fun x => isna x = true) column2 ->
  identifier_set column1 = ∅ ∧ identifier_set column2 = ∅ ∧
  (∀ other,
     common (compare_columns file1_label file2_label column1 other) = [] ∧
     only_in_1 (compare_columns file1_label file2_label column1 other) = [] ∧
     total1 (compare_columns file1_label file2_label column1 other) = 0%nat) ∧
  compare_columns file1_label file2_label column1 column2 =
    {| common := []; only_in_1 := []; only_in_2 := [];
       total1 := 0; total2 := 0;
       metrics := [ (Py.lit "Distinct in " ++ file1_label, 0%nat);
                    (Py.lit "Distinct in " ++ file2_label, 0%nat);
                    (Py.lit "In Both Files", 0%nat);
                    (Py.lit "Total Unique Across Both", 0%nat) ] |}.
Proof.
  intros H1 H2.
  assert (E1 : identifier_set column1 = ∅)
    by (unfold identifier_set; now rewrite (normalize_all_null column1 H1)).
  assert (E2 : identifier_set column2 = ∅)
    by (unfold identifier_set; now rewrite (normalize_all_null column2 H2)).
  split; [exact E1|]. split; [exact E2|].
  unfold compare_columns. fold (identifier_set column1).
  fold (identifier_set column2). rewrite E1, E2.
  split.
  - intros other. cbv beta zeta. cbn [common only_in_1 total1].
    now rewrite empty_intersection, empty_difference, sorted_empty, size_empty.
  - cbv beta zeta.
    now rewrite empty_intersection, empty_difference, empty_union,
      sorted_empty, size_empty.
Qed.

Lemma empty_columns_witness :
  Forall (fun x => isna x = true) [VNull; VFloat S754_nan] ∧
  Forall (fun x => isna x = true) [] ∧
  identifier_set [VNull; VFloat S754_nan] = ∅ ∧
  total2 (compare_columns (Py.lit "a.csv") (Py.lit "b.xlsx")
            [VNull; VFloat S754_nan] []) = 0%nat.
Proof.
  assert (H1 : Forall (fun x => isna x = true) [VNull; VFloat S754_nan])
    by (repeat constructor).
  assert (H2 : Forall (fun x : value => isna x = true) [])
    by constructor.
  split; [exact H1|]. split; [exact H2|].
  destruct (empty_columns_compare_to_nothing
              (Py.lit "a.csv") (Py.lit "b.xlsx") _ _ H1 H2)
    as (E1 & _ & _ & E).
  split; [exact E1|]. rewrite E. reflexivity.
Defined.

(** C9. A text value made of whitespace only (or empty) normalises to the
    empty string, which is kept: it is in the normalised sequence, in the
    Identifier Set, and in one of the result lists of its file. *)
Theorem whitespace_text_kept_as_empty (file1_label file2_label : Py.str)
    (s : Py.str) (column1 column2 : list value) :
  forallb Py.isspace s = true ->
  VStr s ∈ column1 ->
  _norm (VStr s) = Some [] ∧
  [] ∈ normalize_smartcards column1 ∧
  [] ∈ identifier_set column1 ∧
  (let r := compare_columns file1_label file2_label column1 column2 in
   [] ∈ common r ∨ [] ∈ only_in_1 r) ∧
  (let r := compare_columns file1_label file2_label column2 column1 in
   [] ∈ common r ∨ [] ∈ only_in_2 r).
Proof.
  intros Hs Hin.
  assert (Hn : _norm (VStr s) = Some [])
    by (unfold _norm; simpl; now rewrite strip_all_space).
  assert (Hseq : [] ∈ normalize_smartcards column1)
    by (apply elem_of_normalize; eauto).
  assert (Hset : [] ∈ identifier_set column1)
    by (unfold identifier_set; now apply elem_of_list_to_set).
  split; [exact Hn|]. split; [exact Hseq|]. split; [exact Hset|].
  unfold identifier_set in Hset. cbv zeta. unfold compare_columns.
  cbn [common only_in_1 only_in_2]. rewrite !elem_of_sorted.
  rewrite !elem_of_intersection, !elem_of_difference.
  set (A := list_to_set (normalize_smartcards column1) : gset Py.str) in *.
  set (B := list_to_set (normalize_smartcards column2) : gset Py.str).
  destruct (decide ([] ∈ B)); tauto.
Qed.

Lemma whitespace_text_witness :
  forallb Py.isspace (Py.lit "  ") = true ∧
  VStr (Py.lit "  ") ∈ [VInt 7; VStr (Py.lit "  ")] ∧
  [] ∈ normalize_smartcards [VInt 7; VStr (Py.lit "  ")].
Proof.
  assert (H1 : forallb Py.isspace (Py.lit "  ") = true) by reflexivity.
  assert (H2 : VStr (Py.lit "  ") ∈ [VInt 7; VStr (Py.lit "  ")])
    by (right; left).
  split; [exact H1|]. split; [exact H2|].
  exact (proj1 (proj2 (whitespace_text_kept_as_empty
                         (Py.lit "File 1") (Py.lit "File 2") _ _ [] H1 H2))).
Defined.

(** ** The column guess *)

Lemma startswith_spec (p s : Py.str) :
  Py.startswith p s = true ↔ ∃ post, s = p ++ post.
Proof.
  revert s. induction p as [|a p IH]; intros s; simpl.
  - split; [intros _; now exists s | reflexivity].
  - destruct s as [|b s].
    + split; [discriminate | intros [post H]; discriminate].
    + rewrite andb_true_iff, N.eqb_eq, IH. split.
      * intros [-> [post ->]]. now exists post.
      * intros [post H]. injection H as -> ->. eauto.
Qed.

Lemma contains_spec (sub s : Py.str) :
  Py.contains sub s = true ↔ ∃ pre post, s = pre ++ sub ++ post.
Proof.
  induction s as [|b s IH]; simpl; rewrite orb_true_iff, startswith_spec.
  - split.
    + intros [[post H] | H]; [now exists [], post | discriminate].
    + intros (pre & post & H). left. destruct pre; [|discriminate].
      now exists post.
  - rewrite IH. split.
    + intros [[post H] | (pre & post & H)].
      * now exists [], post.
      * exists (b :: pre), post. simpl. now rewrite H.
    + intros (pre & post & H). destruct pre as [|c pre]; simpl in H.
      * left. now exists post.
      * right. injection H as -> ->. eauto.
Qed.

Lemma guess_loop_first (lower_tbl : Py.case_table)
    (pre post : list Py.str) (c : Py.str) :
  Forall (fun n => is_sc_name lower_tbl n = false) pre ->
  is_sc_name lower_tbl c = true ->
  guess_loop lower_tbl (pre ++ c :: post) = Some c.
Proof.
  intros Hpre Hc. induction Hpre as [|n pre Hn _ IH]; simpl.
  - now rewrite Hc.
  - now rewrite Hn.
Qed.

Lemma guess_loop_none (lower_tbl : Py.case_table)
    (cols : list Py.str) :
  Forall (fun n => is_sc_name lower_tbl n = false) cols ->
  guess_loop lower_tbl cols = None.
Proof.
  induction 1 as [|n cols Hn _ IH]; simpl; [reflexivity|]. now rewrite Hn.
Qed.

(** C6. [guess_sc_col] returns the first name whose lowercase form contains
    "smartcard"; when no name does, the first column; on an empty list,
    nothing. *)
Theorem guess_sc_col_first_match (lower_tbl : Py.case_table)
    (cols : list Py.str) :
  (∀ c, is_sc_name lower_tbl c = true ↔
        ∃ u v, Py.lower lower_tbl c = u ++ Py.lit "smartcard" ++ v) ∧
  (∀ pre c post,
     cols = pre ++ c :: post ->
     Forall (fun n => is_sc_name lower_tbl n = false) pre ->
     is_sc_name lower_tbl c = true ->
     guess_sc_col lower_tbl cols = Some c) ∧
  (Forall (fun n => is_sc_name lower_tbl n = false) cols ->
   guess_sc_col lower_tbl cols = head cols) ∧
  guess_sc_col lower_tbl [] = None.
Proof.
  split_and!.
  - intros c. unfold is_sc_name. apply contains_spec.
  - intros pre c post -> Hpre Hc. unfold guess_sc_col.
    now rewrite (guess_loop_first lower_tbl pre post c Hpre Hc).
  - intros Hnone. unfold guess_sc_col.
    rewrite (guess_loop_none lower_tbl cols Hnone).
    destruct cols; reflexivity.
  - reflexivity.
Qed.

(** No case mapping above ASCII: enough for names written in ASCII. *)
Definition ascii_only : Py.case_table := fun _ c _ => [c].

Lemma guess_sc_col_witness :
  guess_sc_col ascii_only
    [Py.lit "Name"; Py.lit "SmartCard No"; Py.lit "smartcard"]
    = Some (Py.lit "SmartCard No") ∧
  guess_sc_col ascii_only [Py.lit "Name"; Py.lit "Card"]
    = Some (Py.lit "Name").
Proof.
  split.
  - apply (proj1 (proj2 (guess_sc_col_first_match ascii_only _))
             [Py.lit "Name"] (Py.lit "SmartCard No") [Py.lit "smartcard"]).
    + reflexivity.
    + repeat constructor.
    + reflexivity.
  - apply (proj1 (proj2 (proj2 (guess_sc_col_first_match ascii_only
                                  [Py.lit "Name"; Py.lit "Card"])))).
    repeat constructor.
Defined.

(** ** The guard of the comparison *)

(** One of the two tables or of the two column selections is absent. *)
Definition inputs_missing (df1 df2 : option DataFrame)
    (col1_name col2_name : option Py.str) : Prop :=
  df1 = None ∨ df2 = None ∨ col1_name = None ∨ col2_name = None.

(** C7. When the trigger is set while a table or a column selection is
    absent, the script warns and the comparison block does not run. *)
Theorem missing_input_warns (df1 df2 : option DataFrame)
    (col1_name col2_name : option Py.str) (file1_label file2_label : Py.str) :
  inputs_missing df1 df2 col1_name col2_name ->
  comparison_logic df1 df2 col1_name col2_name true file1_label file2_label
    = Warned warning_text ∧
  (∀ r, comparison_logic df1 df2 col1_name col2_name true
          file1_label file2_label ≠ Compared r).
Proof.
  intros H.
  assert (E : inputs_present df1 df2 col1_name col2_name = None).
  { unfold inputs_present.
    destruct H as [-> | [-> | [-> | ->]]];
      repeat match goal with |- context [match ?o with _ => _ end] =>
               is_var o; destruct o end; reflexivity. }
  unfold comparison_logic. rewrite E. split; [reflexivity | discriminate].
Qed.

Lemma missing_input_witness :
  inputs_missing (Some [(Py.lit "smartcard", [VInt 1])]) (Some [])
    (Some (Py.lit "smartcard")) None ∧
  comparison_logic (Some [(Py.lit "smartcard", [VInt 1])]) (Some [])
    (Some (Py.lit "smartcard")) None true (Py.lit "a.csv") (Py.lit "b.csv")
    = Warned warning_text.
Proof.
  assert (H : inputs_missing (Some [(Py.lit "smartcard", [VInt 1])]) (Some [])
                (Some (Py.lit "smartcard")) None)
    by (right; right; right; reflexivity).
  split; [exact H|].
  exact (proj1 (missing_input_warns _ _ _ _
                  (Py.lit "a.csv") (Py.lit "b.csv") H)).
Defined.

(** ** The comparison reads the two chosen columns only *)

Lemma getitem_Some_iff (df : DataFrame) (c : Py.str) (cells : list value) :
  NoDup (columns df) -> getitem df c = Some cells ↔ (c, cells) ∈ df.
Proof.
  unfold columns. induction df as [|[n cs] df IH]; simpl; intros Hnd.
  - split; [discriminate | intros H; inversion H].
  - apply NoDup_cons in Hnd as [Hn Hnd]. rewrite elem_of_cons.
    destruct (decide (n = c)) as [->|Hne].
    + split.
      * intros [= ->]. now left.
      * intros [[= ->] | Hin]; [reflexivity|].
        exfalso. apply Hn. apply list_elem_of_fmap. now exists (c, cells).
    + rewrite (IH Hnd). split; [now right|].
      intros [[= -> ->] | Hin]; [contradiction | exact Hin].
Qed.

(** With distinct column names, the order of the columns does not matter to
    [df[c]]. *)
Lemma getitem_column_order (df df' : DataFrame) (c : Py.str) :
  NoDup (columns df) -> df ≡ₚ df' -> getitem df c = getitem df' c.
Proof.
  intros Hnd Hp.
  assert (Hnd' : NoDup (columns df')) by (unfold columns in *; now rewrite <- Hp).
  apply option_eq. intros cells.
  rewrite (getitem_Some_iff df c cells Hnd), (getitem_Some_iff df' c cells Hnd').
  now rewrite Hp.
Qed.

(** The result lists and the four numbers of a comparison, without the
    labels that carry the file names. *)
Definition lists_and_counts (r : comparison)
  : list Py.str * list Py.str * list Py.str * list nat :=
  (common r, only_in_1 r, only_in_2 r, map snd (metrics r)).

(** C10. Two runs whose chosen columns hold the same value sequences give the
    same three result lists and the same four counts, whatever the file
    names, the other columns and the names of the chosen columns are; and
    the order in which a set yields its elements does not show in [sorted]. *)
Theorem comparison_depends_on_chosen_columns_only
    (u1 u2 u1' u2' : upload) (c1 c2 c1' c2' : Py.str)
    (column1 column2 : list value) :
  getitem (table u1) c1 = Some column1 ->
  getitem (table u1') c1' = Some column1 ->
  getitem (table u2) c2 = Some column2 ->
  getitem (table u2') c2' = Some column2 ->
  c1 ≠ [] -> c2 ≠ [] -> c1' ≠ [] -> c2' ≠ [] ->
  (∃ r r',
     script (Page (Some u1) (Some u2) (Some c1) (Some c2) true) = Compared r ∧
     script (Page (Some u1') (Some u2') (Some c1') (Some c2') true)
       = Compared r' ∧
     lists_and_counts r = lists_and_counts r' ∧
     total1 r = total1 r' ∧ total2 r = total2 r') ∧
  (∀ (X : gset Py.str) (l : list Py.str),
     l ≡ₚ elements X -> merge_sort Py.le l = sorted X).
Proof.
  intros G1 G1' G2 G2' N1 N2 N1' N2'. split; [|apply sorted_any_order].
  exists (compare_columns (name u1) (name u2) column1 column2),
         (compare_columns (name u1') (name u2') column1 column2).
  split_and!; try reflexivity.
  - unfold script, comparison_logic, inputs_present. cbn -[compare_columns].
    destruct c1; [contradiction|]. destruct c2; [contradiction|].
    cbn -[compare_columns]. now rewrite G1, G2.
  - unfold script, comparison_logic, inputs_present. cbn -[compare_columns].
    destruct c1'; [contradiction|]. destruct c2'; [contradiction|].
    cbn -[compare_columns]. now rewrite G1', G2'.
Qed.

Lemma chosen_columns_witness :
  let u1 := Upload (Py.lit "a.csv")
              [(Py.lit "Name", [VStr (Py.lit "x"); VStr (Py.lit "y")]);
               (Py.lit "smartcard", [VInt 101; VInt 102])] in
  let u1' := Upload (Py.lit "other.xlsx")
              [(Py.lit "card", [VInt 101; VInt 102]);
               (Py.lit "Region", [VNull; VInt 5])] in
  let u2 := Upload (Py.lit "b.csv") [(Py.lit "sc", [VInt 102])] in
  ∃ r r',
    script (Page (Some u1) (Some u2) (Some (Py.lit "smartcard"))
              (Some (Py.lit "sc")) true) = Compared r ∧
    script (Page (Some u1') (Some u2) (Some (Py.lit "card"))
              (Some (Py.lit "sc")) true) = Compared r' ∧
    lists_and_counts r = lists_and_counts r' ∧
    total1 r = total1 r' ∧ total2 r = total2 r'.
Proof.
  intros u1 u1' u2.
  apply (comparison_depends_on_chosen_columns_only u1 u2 u1' u2
           (Py.lit "smartcard") (Py.lit "sc") (Py.lit "card") (Py.lit "sc")
           [VInt 101; VInt 102] [VInt 102]);
    first [reflexivity | discriminate].
Defined.

(** ** Further properties of the comparison block *)

(** Some cell of the column normalises to [s]. *)
Definition has_identifier (column : list value) (s : Py.str) : Prop :=
  ∃ x, x ∈ column ∧ _norm x = Some s.

Lemma elem_of_identifier_set (column : list value) (s : Py.str) :
  s ∈ identifier_set column ↔ has_identifier column s.
Proof.
  unfold identifier_set, has_identifier.
  rewrite elem_of_list_to_set. apply elem_of_normalize.
Qed.

Lemma compare_columns_lists (file1_label file2_label : Py.str)
    (column1 column2 : list value) :
  let r := compare_columns file1_label file2_label column1 column2 in
  let A := identifier_set column1 in
  let B := identifier_set column2 in
  common r = sorted (A ∩ B) ∧ only_in_1 r = sorted (A ∖ B) ∧
  only_in_2 r = sorted (B ∖ A) ∧ total1 r = size A ∧ total2 r = size B ∧
  map snd (metrics r) = [size A; size B; size (A ∩ B); size (A ∪ B)].
Proof.
  cbv zeta. unfold compare_columns, identifier_set. cbn [common only_in_1
    only_in_2 total1 total2 metrics map snd]. rewrite length_sorted.
  split_and!; reflexivity.
Qed.

(** X1. An identifier is listed as common exactly when a cell of each column
    normalises to it, as only-in-1 exactly when a cell of the first column
    does and no cell of the second, and symmetrically for only-in-2. *)
Theorem result_lists_by_cells (file1_label file2_label : Py.str)
    (column1 column2 : list value) (s : Py.str) :
  let r := compare_columns file1_label file2_label column1 column2 in
  (s ∈ common r ↔ has_identifier column1 s ∧ has_identifier column2 s) ∧
  (s ∈ only_in_1 r ↔ has_identifier column1 s ∧ ¬ has_identifier column2 s) ∧
  (s ∈ only_in_2 r ↔ has_identifier column2 s ∧ ¬ has_identifier column1 s).
Proof.
  cbv zeta.
  destruct (compare_columns_lists file1_label file2_label column1 column2)
    as (-> & -> & -> & _).
  rewrite !elem_of_sorted, elem_of_intersection, !elem_of_difference,
    !elem_of_identifier_set.
  tauto.
Qed.

Lemma union_three_parts (A B : gset Py.str) :
  A ∪ B = (A ∩ B) ∪ (A ∖ B) ∪ (B ∖ A).
Proof.
  apply set_eq. intros s.
  rewrite !elem_of_union, elem_of_intersection, !elem_of_difference.
  destruct (decide (s ∈ A)), (decide (s ∈ B)); tauto.
Qed.

Lemma set_two_parts (A B : gset Py.str) : A = (A ∩ B) ∪ (A ∖ B).
Proof.
  apply set_eq. intros s.
  rewrite elem_of_union, elem_of_intersection, elem_of_difference.
  destruct (decide (s ∈ B)); tauto.
Qed.

(** X2. Exchanging the two files keeps the common list and the last two
    numbers, and exchanges the two only-in lists and the two distinct
    counts. *)
Theorem swapping_files_swaps_results (file1_label file2_label : Py.str)
    (column1 column2 : list value) :
  let r := compare_columns file1_label file2_label column1 column2 in
  let r' := compare_columns file2_label file1_label column2 column1 in
  common r' = common r ∧ only_in_1 r' = only_in_2 r ∧
  only_in_2 r' = only_in_1 r ∧ total1 r' = total2 r ∧ total2 r' = total1 r ∧
  map snd (metrics r') =
    match map snd (metrics r) with
    | [n1; n2; both; all] => [n2; n1; both; all]
    | other => other
    end.
Proof.
  cbv zeta.
  destruct (compare_columns_lists file1_label file2_label column1 column2)
    as (-> & -> & -> & -> & -> & ->).
  destruct (compare_columns_lists file2_label file1_label column2 column1)
    as (-> & -> & -> & -> & -> & ->).
  set (A := identifier_set column1). set (B := identifier_set column2).
  assert (HC : B ∩ A = A ∩ B) by by_membership.
  assert (HU : B ∪ A = A ∪ B) by by_membership.
  rewrite HC, HU. split_and!; reflexivity.
Qed.

(** X3. The numbers of the summary are the lengths of the tabs added up: the
    distinct count of a file is the common list plus its only-in list, and
    the total is the three lists together. *)
Theorem summary_counts_add_up (file1_label file2_label : Py.str)
    (column1 column2 : list value) :
  let r := compare_columns file1_label file2_label column1 column2 in
  total1 r = (length (common r) + length (only_in_1 r))%nat ∧
  total2 r = (length (common r) + length (only_in_2 r))%nat ∧
  map snd (metrics r) =
    [ total1 r; total2 r; length (common r);
      (length (common r) + length (only_in_1 r) + length (only_in_2 r))%nat ].
Proof.
  cbv zeta.
  destruct (compare_columns_lists file1_label file2_label column1 column2)
    as (-> & -> & -> & -> & -> & ->).
  set (A := identifier_set column1). set (B := identifier_set column2).
  rewrite !length_sorted.
  assert (H1 : size A = (size (A ∩ B) + size (A ∖ B))%nat).
  { rewrite (set_two_parts A B) at 1. apply size_union. by_membership. }
  assert (H2 : size B = (size (A ∩ B) + size (B ∖ A))%nat).
  { rewrite (set_two_parts B A) at 1.
    replace (B ∩ A) with (A ∩ B) by by_membership.
    apply size_union. by_membership. }
  assert (H3 : size (A ∪ B)
               = (size (A ∩ B) + size (A ∖ B) + size (B ∖ A))%nat).
  { rewrite (union_three_parts A B) at 1.
    rewrite !size_union; [reflexivity| |]; by_membership. }
  split_and!; [exact H1 | exact H2 |]. now rewrite <- H3.
Qed.

(** X4. Row order and repeated rows do not matter: two columns with the same
    cells, in any order and any multiplicity, give the same lists and the
    same numbers. *)
Theorem row_order_and_repeats_irrelevant (file1_label file2_label : Py.str)
    (column1 column1' column2 column2' : list value) :
  (∀ x, x ∈ column1 ↔ x ∈ column1') ->
  (∀ x, x ∈ column2 ↔ x ∈ column2') ->
  let r := compare_columns file1_label file2_label column1 column2 in
  let r' := compare_columns file1_label file2_label column1' column2' in
  lists_and_counts r = lists_and_counts r' ∧
  total1 r = total1 r' ∧ total2 r = total2 r'.
Proof.
  intros H1 H2. cbv zeta. unfold lists_and_counts.
  destruct (compare_columns_lists file1_label file2_label column1 column2)
    as (-> & -> & -> & -> & -> & ->).
  destruct (compare_columns_lists file1_label file2_label column1' column2')
    as (-> & -> & -> & -> & -> & ->).
  assert (E : ∀ c c' : list value,
             (∀ x, x ∈ c ↔ x ∈ c') -> identifier_set c = identifier_set c').
  { intros c c' H. apply set_eq. intros s.
    rewrite !elem_of_identifier_set. unfold has_identifier.
    split; intros (x & Hx & Hn); exists x; (split; [apply H, Hx | exact Hn]). }
  rewrite (E _ _ H1), (E _ _ H2). split_and!; reflexivity.
Qed.

Lemma row_order_witness :
  let c1 := [VInt 2; VInt 1; VInt 2] in
  let c1' := [VInt 1; VInt 2] in
  (∀ x, x ∈ c1 ↔ x ∈ c1') ∧
  lists_and_counts (compare_columns (Py.lit "a") (Py.lit "b") c1 [VInt 2])
  = lists_and_counts (compare_columns (Py.lit "a") (Py.lit "b") c1' [VInt 2]).
Proof.
  intros c1 c1'.
  assert (H1 : ∀ x, x ∈ c1 ↔ x ∈ c1').
  { intros x. unfold c1, c1'. rewrite !elem_of_cons, elem_of_nil. tauto. }
  split; [exact H1|].
  exact (proj1 (row_order_and_repeats_irrelevant (Py.lit "a") (Py.lit "b")
                  c1 c1' [VInt 2] [VInt 2] H1 (fun x => iff_refl _))).
Defined.

Lemma sorted_nil_iff (X : gset Py.str) : sorted X = [] ↔ X = ∅.
Proof.
  split.
  - intros H. apply set_eq. intros s. rewrite <- elem_of_sorted, H.
    split; [intros Hs; inversion Hs | intros Hs; now apply not_elem_of_empty in Hs].
  - intros ->. apply sorted_empty.
Qed.

(** X5. What an empty tab means: only-in-1 is empty exactly when every
    identifier of file 1 is in file 2, only-in-2 symmetrically, both exactly
    when the two Identifier Sets are equal, and common is empty exactly when
    the two sets share nothing. *)
Theorem empty_tabs_characterised (file1_label file2_label : Py.str)
    (column1 column2 : list value) :
  let r := compare_columns file1_label file2_label column1 column2 in
  let A := identifier_set column1 in
  let B := identifier_set column2 in
  (only_in_1 r = [] ↔ A ⊆ B) ∧ (only_in_2 r = [] ↔ B ⊆ A) ∧
  (only_in_1 r = [] ∧ only_in_2 r = [] ↔ A = B) ∧
  (common r = [] ↔ A ## B).
Proof.
  cbv zeta.
  destruct (compare_columns_lists file1_label file2_label column1 column2)
    as (-> & -> & -> & _).
  set (A := identifier_set column1). set (B := identifier_set column2).
  rewrite !sorted_nil_iff.
  assert (D : ∀ X Y : gset Py.str, X ∖ Y = ∅ ↔ X ⊆ Y).
  { intros X Y. rewrite elem_of_subseteq. split.
    - intros H s Hs. destruct (decide (s ∈ Y)) as [|Hn]; [assumption|].
      exfalso. apply (not_elem_of_empty (C:=gset Py.str) s).
      rewrite <- H. apply elem_of_difference. auto.
    - intros H. apply set_eq. intros s. rewrite elem_of_difference.
      split; [intros [Hs Hn]; exfalso; auto
             | intros Hs; now apply not_elem_of_empty in Hs]. }
  split_and!.
  - apply D.
  - apply D.
  - rewrite !D. split.
    + intros [H1 H2]. apply set_eq. intros s. split; [apply H1 | apply H2].
    + intros ->. split; reflexivity.
  - rewrite elem_of_disjoint. split.
    + intros H s Ha Hb. apply (not_elem_of_empty (C:=gset Py.str) s).
      rewrite <- H. apply elem_of_intersection. auto.
    + intros H. apply set_eq. intros s. rewrite elem_of_intersection.
      split; [intros [Ha Hb]; exfalso; eauto
             | intros Hs; now apply not_elem_of_empty in Hs].
Qed.

(** ** Further properties of the normaliser *)

(** A string without any whitespace code point. *)
Definition nospace (s : Py.str) : Prop :=
  Forall (fun c => Py.isspace c = false) s.

Lemma lstrip_suffix (s : Py.str) : ∃ w, s = w ++ Py.lstrip s.
Proof.
  induction s as [|c s [w IH]]; simpl; [now exists []|].
  destruct (Py.isspace c).
  - exists (c :: w). simpl. now f_equal.
  - now exists [].
Qed.

Lemma lstrip_head (s : Py.str) :
  match Py.lstrip s with
  | [] => True
  | c :: _ => Py.isspace c = false
  end.
Proof.
  induction s as [|c s IH]; simpl; [exact I|].
  destruct (Py.isspace c) eqn:E; [exact IH | exact E].
Qed.

Lemma lstrip_fixed (s : Py.str) :
  match s with [] => True | c :: _ => Py.isspace c = false end ->
  Py.lstrip s = s.
Proof. destruct s as [|c s]; simpl; [reflexivity|]. now intros ->. Qed.

Lemma lstrip_idem (s : Py.str) : Py.lstrip (Py.lstrip s) = Py.lstrip s.
Proof. apply lstrip_fixed, lstrip_head. Qed.

Lemma rstrip_prefix (s : Py.str) : ∃ w, s = Py.rstrip s ++ w.
Proof.
  unfold Py.rstrip. destruct (lstrip_suffix (rev s)) as [w Hw].
  exists (rev w). rewrite <- rev_app_distr, <- Hw. symmetry. apply rev_involutive.
Qed.

Lemma rstrip_idem (s : Py.str) : Py.rstrip (Py.rstrip s) = Py.rstrip s.
Proof. unfold Py.rstrip. now rewrite rev_involutive, lstrip_idem. Qed.

Lemma strip_idem (s : Py.str) : Py.strip (Py.strip s) = Py.strip s.
Proof.
  unfold Py.strip.
  assert (H : Py.lstrip (Py.rstrip (Py.lstrip s)) = Py.rstrip (Py.lstrip s)).
  { apply lstrip_fixed. pose proof (lstrip_head s) as Hh.
    destruct (rstrip_prefix (Py.lstrip s)) as [w Hw].
    destruct (Py.rstrip (Py.lstrip s)) as [|c t]; [exact I|].
    rewrite Hw in Hh. exact Hh. }
  rewrite H. apply rstrip_idem.
Qed.

Lemma strip_nospace (s : Py.str) : nospace s -> Py.strip s = s.
Proof.
  intros H. unfold Py.strip, Py.rstrip.
  assert (H1 : Py.lstrip s = s)
    by (apply lstrip_fixed; destruct H; [exact I | assumption]).
  rewrite H1.
  assert (H2 : Py.lstrip (rev s) = rev s).
  { apply lstrip_fixed. apply Forall_rev in H.
    destruct H; [exact I | assumption]. }
  rewrite H2. apply rev_involutive.
Qed.

Lemma nospace_uint_digits (d : Decimal.uint) : nospace (Py.uint_digits d).
Proof. induction d; simpl; constructor; auto. Qed.

Lemma nospace_str_of_int (z : Z) : nospace (Py.str_of_int z).
Proof.
  destruct z; simpl; repeat constructor; apply nospace_uint_digits.
Qed.

Lemma nospace_drop_zeros (ds : Py.str) :
  nospace ds -> nospace (PyFloat.drop_zeros ds).
Proof.
  induction 1 as [|c ds Hc Hds IH]; simpl; [constructor|].
  destruct (c =? PyFloat.zero_char)%N; [exact IH | now constructor].
Qed.

Lemma nospace_replicate_zero (k : nat) :
  nospace (replicate k PyFloat.zero_char).
Proof. apply Forall_replicate. reflexivity. Qed.

Lemma nospace_with_fraction (ip fp : Py.str) :
  nospace ip -> nospace fp -> nospace (PyFloat.with_fraction ip fp).
Proof.
  intros Hi Hf. unfold PyFloat.with_fraction. destruct fp; [exact Hi|].
  apply Forall_app. split; [exact Hi|].
  apply Forall_app. split; [now repeat constructor | exact Hf].
Qed.

Lemma nospace_exp_field (X : Z) : nospace (PyFloat.exp_field X).
Proof.
  unfold PyFloat.exp_field. apply Forall_app. split.
  - destruct (X <? 0); now repeat constructor.
  - destruct (Z.abs X <? 10); [constructor; [reflexivity|]|];
      apply nospace_str_of_int.
Qed.

Lemma nospace_format_g_pos (P n d : Z) : nospace (PyFloat.format_g_pos P n d).
Proof.
  unfold PyFloat.format_g_pos. destruct (PyFloat.round_sig P n d) as [r X].
  assert (Hds : nospace (PyFloat.strip_zeros (Py.str_of_int r))).
  { unfold PyFloat.strip_zeros. apply Forall_rev, nospace_drop_zeros,
      Forall_rev, nospace_str_of_int. }
  set (ds := PyFloat.strip_zeros (Py.str_of_int r)) in *.
  destruct ((-4 <=? X) && (X <? P)).
  - destruct (0 <=? X).
    + apply nospace_with_fraction.
      * apply Forall_take, Forall_app. split;
          [exact Hds | apply nospace_replicate_zero].
      * now apply Forall_drop.
    + apply Forall_app. split; [now repeat constructor|].
      apply Forall_app. split; [apply nospace_replicate_zero | exact Hds].
  - apply Forall_app. split; [|apply nospace_exp_field].
    apply nospace_with_fraction; [now apply Forall_take | now apply Forall_drop].
Qed.

Lemma nospace_format_15g (x : PyFloat.float) : nospace (PyFloat.format_15g x).
Proof.
  destruct x as [s|s| |s m e]; simpl; try (destruct s); try now repeat constructor.
  - apply Forall_app. split; [now repeat constructor|].
    apply nospace_format_g_pos.
  - apply nospace_format_g_pos.
Qed.

(** X6. Normalising is idempotent: an identifier the normaliser has produced,
    fed back as text, comes out unchanged. *)
Theorem normalized_text_is_stable (x : value) (t : Py.str) :
  _norm x = Some t -> _norm (VStr t) = Some t.
Proof.
  intros H. change (_norm (VStr t)) with (Some (Py.strip t)). f_equal.
  unfold _norm in H. destruct (isna x); [discriminate|].
  destruct x as [|z|f|s].
  - injection H as <-. reflexivity.
  - injection H as <-. apply strip_nospace, nospace_str_of_int.
  - destruct (PyFloat.is_integer f); injection H as <-; apply strip_nospace;
      [apply nospace_str_of_int | apply nospace_format_15g].
  - injection H as <-. apply strip_idem.
Qed.

Lemma normalized_text_witness :
  _norm (VStr (Py.lit "  103 ")) = Some (Py.lit "103") ∧
  _norm (VStr (Py.lit "103")) = Some (Py.lit "103").
Proof.
  assert (H : _norm (VStr (Py.lit "  103 ")) = Some (Py.lit "103"))
    by reflexivity.
  split; [exact H|]. exact (normalized_text_is_stable _ _ H).
Defined.

Lemma uint_digits_inj (d d' : Decimal.uint) :
  Py.uint_digits d = Py.uint_digits d' -> d = d'.
Proof.
  revert d'. induction d; intros d'; destruct d'; simpl; intros H;
    try discriminate; try reflexivity;
    injection H as H; f_equal; now apply IHd.
Qed.

Lemma uint_digits_head (p : positive) :
  match Py.uint_digits (Pos.to_uint p) with
  | [] => False
  | c :: _ => (48 <= c <= 57)%N
  end.
Proof.
  pose proof (Unsigned.to_uint_nonnil p) as H.
  destruct (Pos.to_uint p); simpl; try lia. contradiction.
Qed.

Lemma digits_not_minus (p : positive) (t : Py.str) :
  Py.uint_digits (Pos.to_uint p) <> 45%N :: t.
Proof.
  intros H. pose proof (uint_digits_head p) as Hp. rewrite H in Hp. lia.
Qed.

Lemma digits_not_zero (p : positive) :
  Py.uint_digits (Pos.to_uint p) <> [48%N].
Proof.
  intros H. apply (Unsigned.to_uint_nonzero p), uint_digits_inj. exact H.
Qed.

Lemma str_of_int_inj (a b : Z) : Py.str_of_int a = Py.str_of_int b -> a = b.
Proof.
  destruct a as [|p|p], b as [|q|q]; simpl; intros H.
  - reflexivity.
  - symmetry in H. now apply digits_not_zero in H.
  - discriminate.
  - now apply digits_not_zero in H.
  - f_equal. now apply Unsigned.to_uint_inj, uint_digits_inj.
  - now apply digits_not_minus in H.
  - discriminate.
  - symmetry in H. now apply digits_not_minus in H.
  - injection H as H. f_equal. now apply Unsigned.to_uint_inj, uint_digits_inj.
Qed.

(** X7. Integer cells never collide: two integers normalise to the same
    identifier only when they are equal, and an integer-valued float meets
    exactly the integer it equals. *)
Theorem integer_identifiers_distinct (a b : Z) (f : PyFloat.float) :
  (_norm (VInt a) = _norm (VInt b) ↔ a = b) ∧
  (PyFloat.is_integer f = true ->
   (_norm (VFloat f) = _norm (VInt a) ↔ float_is_int f a)).
Proof.
  split.
  - split; [|now intros ->]. unfold _norm. simpl. intros [= H].
    now apply str_of_int_inj.
  - intros Hi. pose proof (is_integer_float_is_int f Hi) as Hf.
    assert (Hn : _norm (VFloat f) = Some (Py.str_of_int (PyFloat.to_int f))).
    { unfold _norm.
      assert (Hna : isna (VFloat f) = false) by (destruct f; easy).
      now rewrite Hna, Hi. }
    rewrite Hn. change (_norm (VInt a)) with (Some (Py.str_of_int a)). split.
    + intros [= H]. apply str_of_int_inj in H. now rewrite <- H.
    + intros Ha. apply float_is_int_to_int in Ha as [_ ->]. reflexivity.
Qed.

Lemma integer_identifiers_witness :
  PyFloat.is_integer float_123 = true ∧
  (_norm (VFloat float_123) = _norm (VInt 123) ↔ float_is_int float_123 123).
Proof.
  assert (H : PyFloat.is_integer float_123 = true) by reflexivity.
  split; [exact H|].
  exact (proj2 (integer_identifiers_distinct 123 123 float_123) H).
Defined.

(** X8. The normalised sequence has one entry for each cell that is not
    missing: its length is the length of the column less the number of
    missing cells, and never more than the column's. *)
Theorem normalized_length (series : list value) :
  (length (normalize_smartcards series)
   + length (List.filter isna series) = length series)%nat ∧
  (length (normalize_smartcards series) <= length series)%nat.
Proof.
  assert (H : (length (normalize_smartcards series)
               + length (List.filter isna series) = length series)%nat).
  { unfold normalize_smartcards.
    induction series as [|x series IH]; simpl; [reflexivity|].
    unfold _norm at 1. destruct (isna x) eqn:E; simpl.
    - lia.
    - destruct x as [|z|f|s]; try discriminate;
        try (destruct (PyFloat.is_integer f)); simpl; lia. }
  split; [exact H | lia].
Qed.

(** ** Further properties of the script's control flow *)

(** The script, once the sidebar is folded in. *)
Lemma script_unfold (p : page) :
  script p =
    match file1 p, file2 p with
    | Some u1, Some u2 =>
        comparison_logic (Some (table u1)) (Some (table u2))
          (selected1 p) (selected2 p) (button p) (name u1) (name u2)
    | _, _ => Nothing
    end.
Proof.
  unfold script. destruct (file1 p) as [u1|], (file2 p) as [u2|]; reflexivity.
Qed.

(** The closing [if ... elif ...], by the truth of its conjuncts. *)
Lemma comparison_logic_cases (d1 d2 : DataFrame) (s1 s2 : option Py.str)
    (b : bool) (l1 l2 : Py.str) :
  let o := comparison_logic (Some d1) (Some d2) s1 s2 b l1 l2 in
  match b, truthy s1 && truthy s2 with
  | false, _ => o = Nothing
  | true, false => o = Warned warning_text
  | true, true => o <> Nothing ∧ o <> Warned warning_text
  end.
Proof.
  cbv zeta. unfold comparison_logic, inputs_present.
  destruct s1 as [[|a c1]|], s2 as [[|a' c2]|], b;
    cbn [truthy andb]; try reflexivity.
  destruct (getitem d1 (a :: c1)), (getitem d2 (a' :: c2));
    split; discriminate.
Qed.

(** X9. Nothing happens, neither comparison nor warning, exactly when a file
    is missing or the button was not pressed: without both files the button
    is not drawn, so a missing file never leads to the warning. *)
Theorem idle_without_files_or_button (p : page) :
  script p = Nothing ↔ file1 p = None ∨ file2 p = None ∨ button p = false.
Proof.
  rewrite script_unfold.
  destruct (file1 p) as [u1|]; [|split; [auto | reflexivity]].
  destruct (file2 p) as [u2|]; [|split; [auto | reflexivity]].
  pose proof (comparison_logic_cases (table u1) (table u2) (selected1 p)
                (selected2 p) (button p) (name u1) (name u2)) as H.
  cbv zeta in H.
  destruct (button p).
  - split; [|intros [E | [E | E]]; discriminate].
    intros E. destruct (truthy (selected1 p) && truthy (selected2 p)).
    + destruct H as [H _]. contradiction.
    + rewrite H in E. discriminate.
  - split; [auto | intros _; exact H].
Qed.

(** X10. The warning appears exactly when both files are loaded, the button
    was pressed and one of the two selections is [None] or the empty
    name. *)
Theorem warning_exactly_when_selection_unusable (p : page) :
  script p = Warned warning_text ↔
    is_Some (file1 p) ∧ is_Some (file2 p) ∧ button p = true ∧
    (truthy (selected1 p) = false ∨ truthy (selected2 p) = false).
Proof.
  rewrite script_unfold.
  destruct (file1 p) as [u1|];
    [|split; [discriminate | intros ([? E] & _); discriminate]].
  destruct (file2 p) as [u2|];
    [|split; [discriminate | intros (_ & [? E] & _); discriminate]].
  pose proof (comparison_logic_cases (table u1) (table u2) (selected1 p)
                (selected2 p) (button p) (name u1) (name u2)) as H.
  cbv zeta in H.
  destruct (button p).
  - destruct (truthy (selected1 p)), (truthy (selected2 p));
      cbn [andb] in H.
    + split; [intros E; destruct H as [_ H]; contradiction
             | intros (_ & _ & _ & [E | E]); discriminate].
    + split; [intros _ | intros _; exact H]. split_and!; eauto.
    + split; [intros _ | intros _; exact H]. split_and!; eauto.
    + split; [intros _ | intros _; exact H]. split_and!; eauto.
  - split; [rewrite H; discriminate | intros (_ & _ & E & _); discriminate].
Qed.

Lemma getitem_of_column (df : DataFrame) (c : Py.str) :
  c ∈ columns df -> ∃ cells, getitem df c = Some cells ∧ (c, cells) ∈ df.
Proof.
  unfold columns. induction df as [|[n cs] df IH]; simpl; intros H.
  - inversion H.
  - destruct (decide (n = c)) as [->|Hne].
    + exists cs. split; [reflexivity | left].
    + apply elem_of_cons in H as [H | H]; [congruence|].
      destruct (IH H) as (cells & Hg & Hin). exists cells.
      split; [exact Hg | now right].
Qed.

(** X11. A triggered run whose two selections are non-empty names among the
    columns of their tables always ends in a comparison, of two columns that
    carry the selected names: [df[col]] cannot raise. *)
Theorem selected_columns_always_compare (u1 u2 : upload) (c1 c2 : Py.str) :
  c1 ∈ columns (table u1) -> c2 ∈ columns (table u2) ->
  c1 ≠ [] -> c2 ≠ [] ->
  ∃ cells1 cells2,
    (c1, cells1) ∈ table u1 ∧ (c2, cells2) ∈ table u2 ∧
    script (Page (Some u1) (Some u2) (Some c1) (Some c2) true)
      = Compared (compare_columns (name u1) (name u2) cells1 cells2).
Proof.
  intros H1 H2 N1 N2.
  destruct (getitem_of_column _ _ H1) as (cells1 & G1 & I1).
  destruct (getitem_of_column _ _ H2) as (cells2 & G2 & I2).
  exists cells1, cells2. split; [exact I1|]. split; [exact I2|].
  unfold script, comparison_logic, inputs_present. cbn -[compare_columns].
  destruct c1; [contradiction|]. destruct c2; [contradiction|].
  cbn -[compare_columns]. now rewrite G1, G2.
Qed.

Lemma selected_columns_witness :
  let u1 := Upload (Py.lit "a.csv") [(Py.lit "smartcard", [VInt 1])] in
  let u2 := Upload (Py.lit "b.csv") [(Py.lit "sc", [VInt 2])] in
  ∃ cells1 cells2,
    (Py.lit "smartcard", cells1) ∈ table u1 ∧
    (Py.lit "sc", cells2) ∈ table u2 ∧
    script (Page (Some u1) (Some u2) (Some (Py.lit "smartcard"))
              (Some (Py.lit "sc")) true)
      = Compared (compare_columns (name u1) (name u2) cells1 cells2).
Proof.
  intros u1 u2.
  apply (selected_columns_always_compare u1 u2 (Py.lit "smartcard")
           (Py.lit "sc")); first [left | discriminate].
Defined.

(** ** Further properties of the sidebar *)

Lemma guess_loop_elem (lower_tbl : Py.case_table) (cols : list Py.str)
    (c : Py.str) :
  guess_loop lower_tbl cols = Some c -> c ∈ cols.
Proof.
  induction cols as [|n cols IH]; simpl; [discriminate|].
  destruct (is_sc_name lower_tbl n).
  - intros [= ->]. left.
  - intros H. right. auto.
Qed.

Lemma guess_sc_col_elem (lower_tbl : Py.case_table) (cols : list Py.str)
    (c : Py.str) :
  guess_sc_col lower_tbl cols = Some c -> c ∈ cols.
Proof.
  unfold guess_sc_col. destruct (guess_loop lower_tbl cols) as [g|] eqn:E.
  - intros [= <-]. eapply guess_loop_elem, E.
  - destruct cols as [|n cols]; simpl; [discriminate|]. intros [= ->]. left.
Qed.

(** X12. The guess is absent exactly for an empty list of columns, and a
    guess is always one of the given columns. *)
Theorem guess_is_a_column (lower_tbl : Py.case_table) (cols : list Py.str) :
  (guess_sc_col lower_tbl cols = None ↔ cols = []) ∧
  (∀ c, guess_sc_col lower_tbl cols = Some c -> c ∈ cols).
Proof.
  split; [|intros c; apply guess_sc_col_elem].
  split; [|now intros ->].
  unfold guess_sc_col. destruct (guess_loop lower_tbl cols); [discriminate|].
  destruct cols; [reflexivity | discriminate].
Qed.

Lemma list_index_elem (x : Py.str) (l : list Py.str) :
  x ∈ l -> ∃ i, list_index x l = Some i.
Proof.
  induction l as [|y l IH]; intros H; [inversion H|]. simpl.
  destruct (decide (y = x)); [now exists 0%nat|].
  apply elem_of_cons in H as [-> | H]; [contradiction|].
  destruct (IH H) as [i ->]. now exists (S i).
Qed.

Lemma list_index_first (x : Py.str) (l : list Py.str) (i : nat) :
  list_index x l = Some i ->
  nth_error l i = Some x ∧
  ∀ j y, (j < i)%nat -> nth_error l j = Some y -> y ≠ x.
Proof.
  revert i. induction l as [|z l IH]; intros i; simpl; [discriminate|].
  destruct (decide (z = x)) as [->|Hne].
  - intros [= <-]. split; [reflexivity | intros j y Hj; lia].
  - destruct (list_index x l) as [k|]; simpl; [|discriminate].
    intros [= <-]. destruct (IH k eq_refl) as [Hn Hf].
    split; [exact Hn|]. intros [|j] y Hj; simpl.
    + now intros [= <-].
    + apply Hf. lia.
Qed.

(** X13. The index handed to a select box never fails to compute, names the
    guessed column, and is the first position where that name stands; for
    an empty list of columns it is 0. *)
Theorem default_index_is_the_guess (lower_tbl : Py.case_table)
    (cols : list Py.str) :
  ∃ i, default_index lower_tbl cols = Some i ∧
       nth_error cols i = guess_sc_col lower_tbl cols ∧
       (∀ j y, (j < i)%nat -> nth_error cols j = Some y ->
               Some y ≠ guess_sc_col lower_tbl cols) ∧
       (cols = [] -> i = 0%nat).
Proof.
  unfold default_index.
  destruct (guess_sc_col lower_tbl cols) as [c|] eqn:G.
  - pose proof (guess_sc_col_elem _ _ _ G) as Hin.
    destruct c as [|a c]; cbn [truthy].
    + exists 0%nat. split; [reflexivity|].
      assert (H0 : nth_error cols 0 = Some []).
      { unfold guess_sc_col in G.
        destruct (guess_loop lower_tbl cols) as [g|] eqn:E.
        - injection G as ->. exfalso.
          clear Hin. induction cols as [|n cols IH]; simpl in E;
            [discriminate|].
          destruct (is_sc_name lower_tbl n) eqn:En; [|auto].
          injection E as ->. discriminate En.
        - destruct cols; [discriminate | exact G]. }
      split; [exact H0|]. split; [intros j y Hj; lia | reflexivity].
    + destruct (list_index_elem _ _ Hin) as [i Hi]. exists i.
      split; [exact Hi|]. destruct (list_index_first _ _ _ Hi) as [Hn Hf].
      split; [exact Hn|]. split.
      * intros j y Hj Hy [= ->]. now apply (Hf j (a :: c) Hj Hy).
      * intros ->. inversion Hin.
  - exists 0%nat. cbn [truthy].
    assert (E : cols = []).
    { unfold guess_sc_col in G. destruct (guess_loop lower_tbl cols);
        [discriminate|]. destruct cols; [reflexivity | discriminate]. }
    subst cols. split_and!; try reflexivity. intros j y Hj; lia.
Qed.

(** Lowercasing within ASCII: the capitals move to the small letters. *)
Definition ascii_lower_char (c : Py.char) : Py.char :=
  if ((65 <=? c) && (c <=? 90))%N then (c + 32)%N else c.

Definition ascii_fold (s : Py.str) : Py.str := map ascii_lower_char s.

Definition is_ascii (s : Py.str) : Prop := Forall (fun c => (c < 128)%N) s.

(** Lowercasing a stretch [s] of a text that has [before] in front of it and
    [after] behind it. *)
Fixpoint lower_ctx (lower_tbl : Py.case_table) (before s after : Py.str)
  : Py.str :=
  match s with
  | [] => []
  | c :: s' =>
      Py.lower_char lower_tbl before c (s' ++ after)
      ++ lower_ctx lower_tbl (before ++ [c]) s' after
  end.

Lemma lower_from_ctx (lower_tbl : Py.case_table) (before s : Py.str) :
  Py.lower_from lower_tbl before s = lower_ctx lower_tbl before s [].
Proof.
  revert before. induction s as [|c s IH]; intros before; simpl;
    [reflexivity|].
  now rewrite IH, app_nil_r.
Qed.

Lemma lower_ctx_app (lower_tbl : Py.case_table) (before u v after : Py.str) :
  lower_ctx lower_tbl before (u ++ v) after
  = lower_ctx lower_tbl before u (v ++ after)
    ++ lower_ctx lower_tbl (before ++ u) v after.
Proof.
  revert before. induction u as [|c u IH]; intros before; simpl.
  - now rewrite app_nil_r.
  - rewrite IH, <- !app_assoc. reflexivity.
Qed.

Lemma lower_ctx_ascii (lower_tbl : Py.case_table) (before w after : Py.str) :
  is_ascii w -> lower_ctx lower_tbl before w after = ascii_fold w.
Proof.
  intros H. revert before. induction H as [|c w Hc _ IH]; intros before;
    simpl; [reflexivity|].
  rewrite IH. unfold Py.lower_char, ascii_lower_char.
  destruct ((65 <=? c) && (c <=? 90))%N; [reflexivity|].
  destruct (N.ltb_spec c 128); [reflexivity | lia].
Qed.

Lemma is_ascii_of_fold (w : Py.str) : is_ascii (ascii_fold w) -> is_ascii w.
Proof.
  unfold is_ascii, ascii_fold. induction w as [|c w IH]; simpl; intros H;
    [constructor|].
  apply Forall_cons in H as [Hc Hw]. constructor; [|auto].
  unfold ascii_lower_char in Hc.
  destruct ((65 <=? c) && (c <=? 90))%N eqn:E; [|exact Hc].
  apply andb_true_iff in E as [_ E]. apply N.leb_le in E. lia.
Qed.

Lemma lower_with_ascii_part (lower_tbl : Py.case_table) (u w v : Py.str) :
  is_ascii (ascii_fold w) ->
  Py.lower lower_tbl (u ++ w ++ v)
  = lower_ctx lower_tbl [] u (w ++ v) ++ ascii_fold w
    ++ lower_ctx lower_tbl (u ++ w) v [].
Proof.
  intros H. unfold Py.lower. rewrite lower_from_ctx, !lower_ctx_app. simpl.
  now rewrite app_nil_r, (lower_ctx_ascii _ _ _ _ (is_ascii_of_fold _ H)).
Qed.

(** X14. Letter case does not matter to the guess: a name holding
    "smartcard" in any mix of capitals and small letters, wherever in the
    name and whatever stands around it, passes the test of the loop. *)
Theorem smartcard_in_any_case_matches (lower_tbl : Py.case_table)
    (u w v : Py.str) :
  ascii_fold w = Py.lit "smartcard" ->
  is_sc_name lower_tbl (u ++ w ++ v) = true.
Proof.
  intros H. unfold is_sc_name. apply contains_spec.
  rewrite lower_with_ascii_part, H.
  - eauto.
  - rewrite H. unfold is_ascii. repeat constructor.
Qed.

Lemma smartcard_in_any_case_witness :
  ascii_fold (Py.lit "SmartCARD") = Py.lit "smartcard" ∧
  is_sc_name ascii_only (Py.lit "My " ++ Py.lit "SmartCARD" ++ Py.lit " No")
    = true.
Proof.
  assert (H : ascii_fold (Py.lit "SmartCARD") = Py.lit "smartcard")
    by reflexivity.
  split; [exact H|].
  exact (smartcard_in_any_case_matches ascii_only _ _ _ H).
Defined.

Lemma startswith_app (p t : Py.str) : Py.startswith p (p ++ t) = true.
Proof. apply startswith_spec. now exists t. Qed.

(** X15. A file whose name ends in ".csv", in any mix of capitals and small
    letters, is parsed by the delimited-text parser, from the start of the
    file wherever an earlier read has left the position. *)
Theorem csv_name_uses_csv_parser (lower_tbl : Py.case_table)
    (read_csv read_excel : uploaded_file -> option DataFrame * uploaded_file)
    (f : uploaded_file) (stem ext : Py.str) :
  file_name f = stem ++ ext ->
  ascii_fold ext = Py.lit ".csv" ->
  load_table lower_tbl read_csv read_excel (Some f)
  = parsed (read_csv
      {| file_name := file_name f; content := content f; position := 0 |}).
Proof.
  intros Hn He. unfold load_table.
  assert (E : endswith (Py.lit ".csv") (Py.lower lower_tbl (file_name f))
              = true).
  { rewrite Hn, <- (app_nil_r ext), lower_with_ascii_part, He.
    - cbn [lower_ctx]. rewrite app_nil_r.
      unfold endswith. rewrite rev_app_distr. apply startswith_app.
    - rewrite He. unfold is_ascii. repeat constructor. }
  now rewrite E.
Qed.

Lemma csv_name_witness :
  let f := UploadedFile (Py.lit "Cards.CSV") [] 7 in
  let rc := fun g : uploaded_file => (Some ([] : DataFrame), g) in
  let rx := fun g : uploaded_file => (None : option DataFrame, g) in
  ascii_fold (Py.lit ".CSV") = Py.lit ".csv" ∧
  fst (load_table ascii_only rc rx (Some f)) = Table [].
Proof.
  intros f rc rx.
  assert (H : ascii_fold (Py.lit ".CSV") = Py.lit ".csv") by reflexivity.
  split; [exact H|].
  rewrite (csv_name_uses_csv_parser ascii_only rc rx f (Py.lit "Cards")
             (Py.lit ".CSV") eq_refl H).
  reflexivity.
Defined.

Lemma endswith_last_ne (suf s : Py.str) (c d : Py.char) :
  c <> d -> endswith (suf ++ [c]) (s ++ [d]) = false.
Proof.
  intros H. unfold endswith. rewrite !rev_app_distr.
  cbn [rev app Py.startswith]. now destruct (N.eqb_spec c d).
Qed.

(** X16. Every other name goes to the spreadsheet parser: a name that is
    empty, or whose last character is an ASCII one other than "v" and "V"
    (".xlsx", ".xls", but also ".txt" or ".csv.bak"), is never read as
    delimited text. *)
Theorem other_name_uses_excel_parser (lower_tbl : Py.case_table)
    (read_csv read_excel : uploaded_file -> option DataFrame * uploaded_file)
    (f : uploaded_file) :
  match last (file_name f) with
  | None => True
  | Some c => (c < 128)%N ∧ c ≠ 118%N ∧ c ≠ 86%N
  end ->
  load_table lower_tbl read_csv read_excel (Some f)
  = parsed (read_excel
      {| file_name := file_name f; content := content f; position := 0 |}).
Proof.
  intros H. unfold load_table.
  assert (E : endswith (Py.lit ".csv") (Py.lower lower_tbl (file_name f))
              = false).
  { destruct (file_name f) as [|a n _] using rev_ind; [reflexivity|].
    rewrite last_snoc in H. destruct H as (Hc & Hv & HV).
    unfold Py.lower. rewrite lower_from_ctx, lower_ctx_app.
    cbn [lower_ctx app]. rewrite app_nil_r.
    change (Py.lit ".csv") with (Py.lit ".cs" ++ [118%N]).
    unfold Py.lower_char.
    destruct ((65 <=? a) && (a <=? 90))%N eqn:Ea.
    - apply endswith_last_ne. lia.
    - destruct (N.ltb_spec a 128); [|lia]. apply endswith_last_ne.
      congruence. }
  now rewrite E.
Qed.

Lemma other_name_witness :
  let f := UploadedFile (Py.lit "cards.xlsx") [] 0 in
  let rc := fun g : uploaded_file => (None : option DataFrame, g) in
  let rx := fun g : uploaded_file => (Some ([] : DataFrame), g) in
  fst (load_table ascii_only rc rx (Some f)) = Table [].
Proof.
  intros f rc rx.
  rewrite (other_name_uses_excel_parser ascii_only rc rx f).
  - reflexivity.
  - simpl. lia.
Defined.

(** ** Signs and special floats *)

Lemma str_of_int_opp (a : Z) :
  0 < a -> Py.str_of_int (- a) = 45%N :: Py.str_of_int a.
Proof. destruct a; simpl; intros H; try lia. reflexivity. Qed.

(** X17. For floats the sign is carried over as a leading minus: the
    identifier of a negative finite non-zero float is that of its absolute
    value with "-" in front. Both zeros give "0", the identifier of the
    integer 0, and the two infinities give "inf" and "-inf". *)
Theorem float_sign_is_a_leading_minus (m : positive) (e : Z) (s : bool) :
  (∃ t, _norm (VFloat (S754_finite false m e)) = Some t ∧
        _norm (VFloat (S754_finite true m e)) = Some (45%N :: t)) ∧
  _norm (VFloat (S754_zero s)) = _norm (VInt 0) ∧
  _norm (VFloat (S754_infinity s))
    = Some (Py.lit (if s then "-inf" else "inf")).
Proof.
  split; [|split; [reflexivity | now destruct s]].
  unfold _norm. cbn [isna].
  change (PyFloat.is_integer (S754_finite true m e))
    with (PyFloat.is_integer (S754_finite false m e)).
  destruct (PyFloat.is_integer (S754_finite false m e)) eqn:Hi.
  - eexists. split; [reflexivity|]. f_equal.
    cbn [PyFloat.to_int]. cbn [PyFloat.is_integer] in Hi.
    apply str_of_int_opp.
    destruct (Z.leb_spec 0 e) as [He|He].
    + pose proof (pow2_pos e He). nia.
    + assert (Hd : 0 < 2 ^ (- e)) by (apply pow2_pos; lia).
      apply Z.eqb_eq in Hi.
      pose proof (Z.div_mod (Z.pos m) (2 ^ (- e)) ltac:(lia)) as Hdm.
      rewrite Hi in Hdm. nia.
  - eexists. split; reflexivity.
Qed.

(** ** Where the float rendering uses exponent notation *)


















Section RoundSig.

Variables n d : Z.
Hypothesis Hn : 0 < n.
Hypothesis Hd : 0 < d.

Let X := snd (PyFloat.round_sig 15 n d).






End RoundSig.

Section Charset.

Variable Q : Py.char -> Prop.
Hypothesis Q_digit : ∀ c, (48 <= c <= 57)%N -> Q c.
Hypothesis Q_minus : Q 45%N.
Hypothesis Q_point : Q 46%N.






End Charset.




